(** * Cube Partner Training site: feature list component and site configuration

    A shallow embedding of the two code artefacts of the repository,
    [src/components/HomepageFeatures/index.tsx] and the Docusaurus
    configuration module, together with the part of the documentation
    landing page that lists the training modules. *)

From Stdlib Require Import ZArith Ascii.
From stdpp Require Import base strings list pretty gmap.

Open Scope string_scope.
Set Warnings "-register-all".

(** ** React element trees *)

(** The value of a JSX attribute: a string literal, or a class name looked
    up in the CSS module imported as [styles]. *)
Inductive AttrValue :=
  | Lit (s : string)
  | Styles (member : string).

(** The graphic a feature entry refers to:
    [require('@site/static/img/<file>').default]. *)
Inductive SvgRef :=
  | SvgModule (path : string).

(** The elements that the component file builds.  [RFeature] is the element
    [<Feature key={idx} {...props} />]: the three members of the spread
    [props] object are its props, [key] is React's reserved key. *)
Inductive ReactNode :=
  | RText (s : string)
  | RFragment (children : list ReactNode)
  | RHost (tag : string) (attrs : list (string * AttrValue))
          (children : list ReactNode)
  | RSvg (Svg : SvgRef) (attrs : list (string * AttrValue))
  | RHeading (as_ : string) (children : list ReactNode)
  | RFeature (key : option nat) (title : string) (Svg : SvgRef)
             (description : ReactNode).

(** [clsx] joins its truthy (non-empty) string arguments with one space. *)
Definition clsx (args : list string) : string :=
  String.concat " " (filter (λ s, s ≠ "") args).

Module Features.

(** type FeatureItem *)
Record FeatureItem := {
  title : string;
  Svg : SvgRef;
  description : ReactNode;
}.

(** const FeatureList.  A JSX text child spanning several source lines
    denotes the lines with their indentation and trailing blanks removed,
    joined by single spaces. *)
Definition FeatureList : list FeatureItem := [
  {| title := "Hands-On Learning";
     Svg := SvgModule "@site/static/img/undraw_docusaurus_mountain.svg";
     description := RFragment [RText
       ("Learn by building with real TPC-H data and DuckDB. Each module includes " +:+
        "practical exercises that build on previous knowledge, creating a complete " +:+
        "analytics solution from foundation to advanced patterns.")] |};
  {| title := "Partner-Focused Content";
     Svg := SvgModule "@site/static/img/undraw_docusaurus_tree.svg";
     description := RFragment [RText
       ("Designed specifically for systems integrators and consultants. " +:+
        "Learn to position Cube Cloud, implement client solutions, and " +:+
        "build a successful analytics practice with enterprise-grade patterns.")] |};
  {| title := "Production Ready";
     Svg := SvgModule "@site/static/img/undraw_docusaurus_react.svg";
     description := RFragment [RText
       ("Master security, performance optimization, and troubleshooting. " +:+
        "Connect to BI tools, build custom applications, and implement " +:+
        "sophisticated analytics patterns your clients will love.")] |}
].

(** function Feature({title, Svg, description}: FeatureItem) *)
Definition Feature (props : FeatureItem) : ReactNode :=
  RHost "div" [("className", Lit (clsx ["col col--4"]))] [
    RHost "div" [("className", Lit "text--center")] [
      RSvg (Svg props) [("className", Styles "featureSvg"); ("role", Lit "img")]
    ];
    RHost "div" [("className", Lit "text--center padding-horiz--md")] [
      RHeading "h3" [RText (title props)];
      RHost "p" [] [description props]
    ]
  ].

End Features.

(** ** The site configuration module *)

Module SiteConfig.

(** The generator's reporting severities, written in the source as the
    string literals 'ignore', 'log', 'warn' and 'throw'. *)
Inductive ReportingSeverity := Ignore | Log | Warn | Throw.

Definition severity_literal (s : ReportingSeverity) : string :=
  match s with
  | Ignore => "ignore" | Log => "log" | Warn => "warn" | Throw => "throw"
  end.

Record FutureConfig := { v4 : bool }.

Record I18nConfig := {
  defaultLocale : string;
  locales : list string;
}.

Record DocsOptions := {
  sidebarPath : string;
  editUrl : string;
}.

Record ThemeOptions := { customCss : string }.

(** Options of the classic preset; [blog: false] is [None]. *)
Record PresetOptions := {
  docs : option DocsOptions;
  blog : option unit;
  theme : ThemeOptions;
}.

(** A navbar item or a footer link item: an object literal in which each
    of these members is either present or absent. *)
Record LinkItem := {
  type : option string;
  sidebarId : option string;
  position : option string;
  label : option string;
  to : option string;
  href : option string;
}.

Record Logo := { alt : string; src : string }.

Record Navbar := {
  navbar_title : string;
  logo : Logo;
  items : list LinkItem;
}.

Record FooterGroup := {
  group_title : string;
  group_items : list LinkItem;
}.

Record Footer := {
  style : string;
  links : list FooterGroup;
  copyright : string;
}.

(** A member of the imported [prismThemes] object. *)
Inductive PrismTheme := PrismThemes (member : string).

Record PrismConfig := {
  prism_theme : PrismTheme;
  darkTheme : PrismTheme;
}.

Record ThemeConfig := {
  image : string;
  navbar : Navbar;
  footer : Footer;
  prism : PrismConfig;
}.

Record Config := {
  title : string;
  tagline : string;
  favicon : string;
  future : FutureConfig;
  url : string;
  baseUrl : string;
  organizationName : string;
  projectName : string;
  onBrokenLinks : ReportingSeverity;
  onBrokenMarkdownLinks : ReportingSeverity;
  i18n : I18nConfig;
  presets : list (string * PresetOptions);
  themeConfig : ThemeConfig;
}.

(** Object literals with only some of the members. *)
Definition sidebar_item (sid pos lbl : string) : LinkItem :=
  {| type := Some "docSidebar"; sidebarId := Some sid; position := Some pos;
     label := Some lbl; to := None; href := None |}.

Definition href_item (url lbl pos : string) : LinkItem :=
  {| type := None; sidebarId := None; position := Some pos;
     label := Some lbl; to := None; href := Some url |}.

Definition footer_to (lbl path : string) : LinkItem :=
  {| type := None; sidebarId := None; position := None;
     label := Some lbl; to := Some path; href := None |}.

Definition footer_href (lbl url : string) : LinkItem :=
  {| type := None; sidebarId := None; position := None;
     label := Some lbl; to := None; href := Some url |}.

(** The template literal of the footer's copyright member;
    [year] is the value of [new Date().getFullYear()], an integer that
    the template converts to its decimal numeral.  The copyright sign is
    held as the two bytes of its UTF-8 encoding. *)
Definition copyright_text (year : Z) : string :=
  "Copyright © " +:+ pretty year +:+ " Cube Dev, Inc. Built with Docusaurus.".

(** const config, as evaluated when the clock reads [year]. *)
Definition config (year : Z) : Config := {|
  title := "Cube Partner Training";
  tagline := "Master the semantic layer for analytics success";
  favicon := "img/favicon.ico";
  future := {| v4 := true |};
  url := "https://cube-partner-training.github.io";
  baseUrl := "/cube-partner-training/";
  organizationName := "cube-partner-training";
  projectName := "cube-partner-training";
  onBrokenLinks := Throw;
  onBrokenMarkdownLinks := Warn;
  i18n := {| defaultLocale := "en"; locales := ["en"] |};
  presets := [
    ("classic",
     {| docs := Some {|
          sidebarPath := "./sidebars.ts";
          editUrl := "https://github.com/cube-partner-training/cube-partner-training/tree/main/" |};
        blog := None;
        theme := {| customCss := "./src/css/custom.css" |} |})
  ];
  themeConfig := {|
    image := "img/docusaurus-social-card.jpg";
    navbar := {|
      navbar_title := "Cube Partner Training";
      logo := {| alt := "Cube Logo"; src := "img/logo.svg" |};
      items := [
        sidebar_item "tutorialSidebar" "left" "Training Modules";
        href_item "https://cube.dev" "Cube.dev" "right";
        href_item "https://cubecloud.dev" "Cube Cloud" "right";
        href_item "https://github.com/cube-js/cube" "GitHub" "right"
      ] |};
    footer := {|
      style := "dark";
      links := [
        {| group_title := "Training";
           group_items := [
             footer_to "Getting Started" "/docs/intro";
             footer_to "Module 1: Foundation" "/docs/module-1-foundation";
             footer_to "Module 2: Getting Started" "/docs/module-2-getting-started"
           ] |};
        {| group_title := "Cube Resources";
           group_items := [
             footer_href "Cube.dev" "https://cube.dev";
             footer_href "Cube Cloud" "https://cubecloud.dev";
             footer_href "Documentation" "https://cube.dev/docs";
             footer_href "Community Slack" "https://cube.dev/slack"
           ] |};
        {| group_title := "Support";
           group_items := [
             footer_href "GitHub Issues" "https://github.com/cube-js/cube/issues";
             footer_href "Stack Overflow" "https://stackoverflow.com/questions/tagged/cube.js";
             footer_href "Partner Program" "https://cube.dev/partners"
           ] |}
      ];
      copyright := copyright_text year |};
    prism := {|
      prism_theme := PrismThemes "github";
      darkTheme := PrismThemes "dracula" |}
  |}
|}.

End SiteConfig.

(** ** Module-level bindings and the operations of the repository *)

(** The two module-level bindings: the array bound to [FeatureList] and the
    object bound to [config].  Both are mutable JavaScript values, so every
    operation is a function from the bindings to a result and the bindings
    it leaves behind. *)
Record Store := {
  st_FeatureList : list Features.FeatureItem;
  st_config : SiteConfig.Config;
}.

Definition M (A : Type) : Type := Store → A * Store.

#[global] Instance M_ret : MRet M := λ A a s, (a, s).

#[global] Instance M_bind : MBind M :=
  λ A B k m s, let (a, s') := m s in k a s'.

Definition read_FeatureList : M (list Features.FeatureItem) :=
  λ s, (st_FeatureList s, s).

Definition read_config : M SiteConfig.Config :=
  λ s, (st_config s, s).

(** The bindings once both modules have been evaluated. *)
Definition init_store (year : Z) : Store :=
  {| st_FeatureList := Features.FeatureList;
     st_config := SiteConfig.config year |}.

(** The JSX around the mapped entries in [HomepageFeatures]. *)
Definition features_section (row : list ReactNode) : ReactNode :=
  RHost "section" [("className", Styles "features")] [
    RHost "div" [("className", Lit "container")] [
      RHost "div" [("className", Lit "row")] row
    ]
  ].

(** <Feature key={idx} {...props} /> *)
Definition feature_element (idx : nat) (props : Features.FeatureItem) : ReactNode :=
  RFeature (Some idx) (Features.title props) (Features.Svg props)
           (Features.description props).

(** export default function HomepageFeatures(): [Array.prototype.map] calls
    its callback with each element and its index, in index order. *)
Definition HomepageFeatures : M ReactNode :=
  FeatureList ← read_FeatureList;
  mret (features_section (imap feature_element FeatureList)).

(** export default config *)
Definition export_config : M SiteConfig.Config := read_config.

(** The operations that the two modules offer. *)
Inductive Operation :=
  | CallFeature (props : Features.FeatureItem)
  | CallHomepageFeatures
  | ImportConfig.

Inductive Outcome :=
  | Rendered (node : ReactNode)
  | Exported (cfg : SiteConfig.Config).

Definition run_op (op : Operation) : M Outcome :=
  match op with
  | CallFeature props => mret (Rendered (Features.Feature props))
  | CallHomepageFeatures => node ← HomepageFeatures; mret (Rendered node)
  | ImportConfig => cfg ← export_config; mret (Exported cfg)
  end.

Fixpoint run_ops (ops : list Operation) : M (list Outcome) :=
  match ops with
  | [] => mret []
  | op :: rest =>
      o ← run_op op;
      os ← run_ops rest;
      mret (o :: os)
  end.

(** ** Rendering element trees *)

(** React turns an element tree into the tree of host elements: a function
    component element is replaced by the result of calling the component
    with the element's props, and rendering goes on inside the result.  Of
    what [Feature] returns only [description] can hold further elements. *)
Fixpoint render (n : ReactNode) : ReactNode :=
  match n with
  | RText s => RText s
  | RFragment cs => RFragment (List.map render cs)
  | RHost tag attrs cs => RHost tag attrs (List.map render cs)
  | RSvg svg attrs => RSvg svg attrs
  | RHeading a cs => RHeading a (List.map render cs)
  | RFeature _ t svg d =>
      Features.Feature
        {| Features.title := t; Features.Svg := svg;
           Features.description := render d |}
  end.

Definition children_of (n : ReactNode) : list ReactNode :=
  match n with
  | RFragment cs | RHost _ _ cs | RHeading _ cs => cs
  | _ => []
  end.

(** [n] is [m] or lies below it. *)
Inductive occurs_in (n : ReactNode) : ReactNode → Prop :=
  | occurs_here : occurs_in n n
  | occurs_below m c : c ∈ children_of m → occurs_in n c → occurs_in n m.

(** The children of the row of a features section. *)
Definition blocks_of (n : ReactNode) : list ReactNode :=
  match n with
  | RHost _ _ [RHost _ _ [RHost _ _ row]] => row
  | _ => []
  end.

(** The keys of a list of elements. *)
Definition key_of (n : ReactNode) : option nat :=
  match n with
  | RFeature k _ _ _ => k
  | _ => None
  end.

(** ** The documentation pages *)

Module Docs.

(** A markdown link [[text](target)]. *)
Record MdLink := { link_text : string; link_target : string }.

(** The links of the seven headings under "Learning Path" on the landing
    page of the documentation, in the order of the page. *)
Definition LearningPath : list MdLink := [
  {| link_text := "Module 1: Foundation";
     link_target := "./module-1-foundation/" |};
  {| link_text := "Module 2: Getting Started";
     link_target := "./module-2-getting-started/" |};
  {| link_text := "Module 3: Data Modeling";
     link_target := "./module-3-data-modeling/" |};
  {| link_text := "Module 4: Security & Access Control";
     link_target := "./module-4-security/" |};
  {| link_text := "Module 5: Performance & Caching";
     link_target := "./module-5-performance/" |};
  {| link_text := "Module 6: APIs & Integration";
     link_target := "./module-6-apis-integration/" |};
  {| link_text := "Module 7: Advanced Concepts";
     link_target := "./module-7-advanced/" |}
].

(** The documentation pages whose files are among the sources. *)
Definition pages : list string := [
  "docs/module-1-foundation/index.md";
  "docs/module-3-data-modeling/index.md";
  "docs/module-4-security/index.md";
  "docs/module-5-performance/index.md"
].

Definition digit_of (c : ascii) : option nat :=
  let n := nat_of_ascii c in
  if bool_decide (48 ≤ n ≤ 57)%nat then Some (n - 48) else None.

(** The digit that follows [prefix] in [s]. *)
Definition digit_after (prefix s : string) : option nat :=
  if String.prefix prefix s
  then String.get (String.length prefix) s ≫= digit_of
  else None.

(** The module number a link announces in its text and the one of the
    directory it points to. *)
Definition module_number (l : MdLink) : option nat :=
  digit_after "Module " (link_text l).

Definition target_number (l : MdLink) : option nat :=
  digit_after "./module-" (link_target l).

(** The files that serve an internal path: [/docs/x] is the page
    [docs/x.md] or the index page of the directory [docs/x]. *)
Definition candidates (path : string) : list string :=
  match path with
  | String "/" rest => [rest +:+ ".md"; rest +:+ "/index.md"]
  | _ => []
  end.

Definition resolves (known : list string) (path : string) : bool :=
  bool_decide (Exists (λ f, f ∈ known) (candidates path)).

End Docs.

(** ** Link targets *)

Module Links.
Import SiteConfig.

Fixpoint strip_prefix (p s : string) : option string :=
  match p, s with
  | EmptyString, _ => Some s
  | String a p', String b s' =>
      if Ascii.eqb a b then strip_prefix p' s' else None
  | String _ _, EmptyString => None
  end.

Fixpoint split_on (sep : ascii) (s : string) : list string :=
  match s with
  | EmptyString => [EmptyString]
  | String c s' =>
      if Ascii.eqb c sep then EmptyString :: split_on sep s'
      else match split_on sep s' with
           | [] => [String c EmptyString]
           | l :: ls => String c l :: ls
           end
  end.

Fixpoint string_forall (f : ascii → bool) (s : string) : bool :=
  match s with
  | EmptyString => true
  | String c s' => f c && string_forall f s'
  end.

(** A lower-case letter, a digit or a hyphen. *)
Definition label_char (c : ascii) : bool :=
  let n := nat_of_ascii c in
  bool_decide (97 ≤ n ≤ 122)%nat || bool_decide (48 ≤ n ≤ 57)%nat || bool_decide (n = 45).

(** A visible ASCII character. *)
Definition visible_char (c : ascii) : bool :=
  let n := nat_of_ascii c in bool_decide (33 ≤ n ≤ 126)%nat.

Definition host_label (l : string) : bool :=
  bool_decide (l ≠ EmptyString) && string_forall label_char l.

(** A host name: at least two non-empty labels separated by dots. *)
Definition well_formed_host (h : string) : bool :=
  let labels := split_on "." h in
  bool_decide (2 ≤ length labels)%nat && forallb host_label labels.

(** An absolute https URL: the scheme, a host name and, optionally, a
    path of visible characters that starts with a slash. *)
Definition well_formed_url (u : string) : bool :=
  match strip_prefix "https://" u with
  | None => false
  | Some rest =>
      match split_on "/" rest with
      | [] => false
      | h :: segments =>
          well_formed_host h && forallb (string_forall visible_char) segments
      end
  end.

(** An internal documentation path: [/docs/] followed by a page. *)
Definition docs_path (p : string) : bool :=
  match strip_prefix "/docs/" p with
  | Some rest => bool_decide (rest ≠ EmptyString) && string_forall visible_char rest
  | None => false
  end.

Definition nonempty_label (e : LinkItem) : Prop :=
  ∃ l, label e = Some l ∧ l ≠ EmptyString.

(** The entry has a [to] member under [/docs/] and no [href]. *)
Definition internal_target (e : LinkItem) : Prop :=
  (∃ p, to e = Some p ∧ docs_path p = true) ∧ href e = None.

(** The entry has an https [href] member and no [to]. *)
Definition external_target (e : LinkItem) : Prop :=
  (∃ u, href e = Some u ∧ well_formed_url u = true) ∧ to e = None.

(** The entry names a sidebar of the documentation instead of a path or
    a URL: [type: 'docSidebar'] with a [sidebarId]. *)
Definition sidebar_target (e : LinkItem) : Prop :=
  type e = Some "docSidebar" ∧ (∃ sid, sidebarId e = Some sid ∧ sid ≠ EmptyString)
  ∧ to e = None ∧ href e = None.


(** The navbar items followed by the items of the footer groups. *)
Definition footer_entries (cfg : Config) : list LinkItem :=
  concat (group_items <$> links (footer (themeConfig cfg))).

Definition navbar_entries (cfg : Config) : list LinkItem :=
  items (navbar (themeConfig cfg)).

Definition all_entries (cfg : Config) : list LinkItem :=
  navbar_entries cfg ++ footer_entries cfg.

(** The navbar item that opens the documentation sidebar. *)
Definition training_modules_item : LinkItem :=
  sidebar_item "tutorialSidebar" "left" "Training Modules".


(** An entry with exactly one of the two kinds of target, a path or a URL. *)
Definition claimed_one_target (e : LinkItem) : Prop :=
  internal_target e ∨ external_target e.

End Links.

(** ** What the site generator makes of the configuration *)

Module Theme.
Import SiteConfig.

Definition label_text (it : LinkItem) : string := default "" (label it).

Definition target_text (it : LinkItem) : string :=
  match href it, to it with
  | Some u, _ => u
  | None, Some p => p
  | None, None => ""
  end.

(** Modelled from the spec: the footer is drawn by the theme of the site
    generator, whose code is not part of the repository.  The spec asks
    that display order be declaration order, for the groups and for the
    items of each group: every link group becomes one column, headed by
    the group's title, and every item one entry of the column's list. *)
Definition footer_link (it : LinkItem) : ReactNode :=
  RHost "li" [("className", Lit "footer__item")] [
    RHost "a" [("className", Lit "footer__link-item");
               ("href", Lit (target_text it))]
          [RText (label_text it)]
  ].

(** Modelled from the spec: the column that the theme draws for a link
    group, the title first and the items below it in their order. *)
Definition footer_column (g : FooterGroup) : ReactNode :=
  RHost "div" [("className", Lit "col footer__col")] [
    RHost "div" [("className", Lit "footer__title")] [RText (group_title g)];
    RHost "ul" [("className", Lit "footer__items")]
          (footer_link <$> group_items g)
  ].

(** Modelled from the spec: the footer that the theme draws, one column
    for each link group in the order of [links], then the copyright line. *)
Definition render_footer (f : Footer) : ReactNode :=
  RHost "footer" [("className", Lit ("footer footer--" +:+ style f))] [
    RHost "div" [("className", Lit "row footer__links")]
          (footer_column <$> links f);
    RHost "div" [("className", Lit "footer__copyright")] [RText (copyright f)]
  ].

(** Reading a rendered footer back: its columns, and the title and the
    link labels of a column. *)
Definition rendered_columns (n : ReactNode) : list ReactNode :=
  match n with
  | RHost _ _ (RHost _ _ cols :: _) => cols
  | _ => []
  end.

Definition column_title (c : ReactNode) : string :=
  match c with
  | RHost _ _ (RHost _ _ [RText t] :: _) => t
  | _ => ""
  end.

Definition entry_label (li : ReactNode) : string :=
  match li with
  | RHost _ _ [RHost _ _ [RText l]] => l
  | _ => ""
  end.

Definition column_labels (c : ReactNode) : list string :=
  match c with
  | RHost _ _ [_; RHost _ _ lis] => entry_label <$> lis
  | _ => []
  end.

End Theme.

(** ** The pages of the site *)

Module Site.
Import SiteConfig Links.

(** [s] without the suffix [suf]. *)
Fixpoint strip_suffix (suf s : string) : option string :=
  if bool_decide (s = suf) then Some EmptyString
  else match s with
       | EmptyString => None
       | String c s' => String c <$> strip_suffix suf s'
       end.

(** The directory that a relative link [./dir/] names. *)
Definition linked_directory (l : Docs.MdLink) : option string :=
  strip_prefix "./" (Docs.link_target l) ≫= strip_suffix "/".

(** Modelled from the spec: the documentation tree of the modules 1 to 7.
    The pages of the modules 2, 6 and 7 are among the sources only as text
    appended to other pages, without their file names.  Each module is
    taken to be served under the directory that the landing page's link to
    it names, by the index page of that directory, which is where the four
    module pages with a known file name are. *)
Definition module_routes : list string :=
  omap (λ l, String.app "/docs/" <$> linked_directory l) Docs.LearningPath.

Definition index_page (route : string) : string :=
  match route with
  | String "/" rest => rest +:+ "/index.md"
  | _ => route
  end.

Definition module_pages : list string := index_page <$> module_routes.

(** The documentation pages of the repository when the landing page, whose
    file name the sources do not show, is the file [landing]. *)
Definition repository_pages (landing : string) : list string :=
  landing :: module_pages.


(** Where a navigation item leads. *)
Inductive Destination :=
  | InternalPage (route : string)
  | ExternalUrl (url : string).

(** Modelled from the spec: the sidebar file sidebars.ts is not among the
    sources.  The one sidebar, which the configuration calls
    'tutorialSidebar', lays out the documentation tree: the landing page,
    whose front matter asks for position 1, and then the modules in their
    order. *)
Definition sidebars (landing_route : string) : gmap string (list string) :=
  {[ "tutorialSidebar" := landing_route :: module_routes ]}.

(** Modelled from the spec: the navigation bar is drawn by the generator's
    theme and points to internal documentation pages and to external URLs:
    an item with an [href] leads to that URL, one with a [to] to that path,
    and a docSidebar item to the first page of the sidebar it names. *)
Definition destination (sb : gmap string (list string)) (item : LinkItem)
    : option Destination :=
  match href item, to item with
  | Some u, _ => Some (ExternalUrl u)
  | None, Some p => Some (InternalPage p)
  | None, None =>
      if bool_decide (type item = Some "docSidebar") then
        sid ← sidebarId item; routes ← sb !! sid; InternalPage <$> head routes
      else None
  end.

(** Modelled from the spec: the pages of the site are put together by the
    site generator from the home page, the sidebar file and the
    documentation pages, which are only partly among the sources.  The
    spec describes the output as a feature section, a documentation tree,
    a left sidebar and a top navigation bar: the feature section is the
    rendered [HomepageFeatures], the tree holds the routes of the landing
    page and of the modules, the sidebar is the one that the docSidebar
    item of the navigation bar names, and the navigation bar shows each
    navbar item of the configuration with its label and where it leads. *)
Record SiteOutput := {
  feature_section : ReactNode;
  documentation_tree : list string;
  left_sidebar : list string;
  top_navigation : list (string * option Destination);
}.

Definition build_site (landing_route : string) : M SiteOutput :=
  node ← HomepageFeatures;
  cfg ← export_config;
  let sb := sidebars landing_route in
  mret {| feature_section := render node;
          documentation_tree := landing_route :: module_routes;
          left_sidebar :=
            default [] (head (omap (λ it, sidebarId it ≫= (sb !!.))
                                   (navbar_entries cfg)));
          top_navigation :=
            (λ it, (Theme.label_text it, destination sb it))
              <$> navbar_entries cfg |}.

End Site.

(** ** The sample code of the training modules *)

(** The JavaScript values that the samples handle: undefined, null,
    booleans, strings, and the numbers that are integers of the safe range
    (of magnitude below 2^53), which print as their decimal numeral. *)
Inductive JsValue :=
  | JUndefined
  | JNull
  | JBool (b : bool)
  | JNum (n : Z)
  | JStr (s : string).

#[global] Instance JsValue_eq_dec : EqDecision JsValue.
Proof. solve_decision. Defined.

(** ToBoolean *)
Definition truthy (v : JsValue) : bool :=
  match v with
  | JUndefined | JNull => false
  | JBool b => b
  | JNum n => bool_decide (n ≠ 0%Z)
  | JStr s => bool_decide (s ≠ "")
  end.

(** [a || b] *)
Definition js_or (a b : JsValue) : JsValue := if truthy a then a else b.

(** ToString, as a template literal applies it to a substitution. *)
Definition to_string (v : JsValue) : string :=
  match v with
  | JUndefined => "undefined"
  | JNull => "null"
  | JBool true => "true"
  | JBool false => "false"
  | JNum n => pretty n
  | JStr s => s
  end.

(** [o.k] or [o[k]] on an object literal or parsed object: the value of an
    own property, undefined when there is none. *)
Definition member (o : gmap string JsValue) (k : string) : JsValue :=
  default JUndefined (o !! k).

(** [s.replace(pat, '')]: the first occurrence of [pat] is removed. *)
Fixpoint remove_first (pat s : string) : string :=
  match Links.strip_prefix pat s with
  | Some rest => rest
  | None =>
      match s with
      | EmptyString => EmptyString
      | String c s' => String c (remove_first pat s')
      end
  end.

(** [s.includes(pat)] *)
Fixpoint includes (pat s : string) : bool :=
  match Links.strip_prefix pat s with
  | Some _ => true
  | None =>
      match s with
      | EmptyString => false
      | String _ s' => includes pat s'
      end
  end.

Module Security.

(** The object that [checkAuth] returns and the filters read. *)
Record SecurityContext := {
  user_id : JsValue;
  role : JsValue;
  region : JsValue;
  tenant_id : JsValue;
}.

Inductive JsError :=
  | TypeError
  | Error (message : string).

(** How an async function settles. *)
Inductive Settled (A : Type) :=
  | Resolved (a : A)
  | Rejected (e : JsError).
Arguments Resolved {A} a.
Arguments Rejected {A} e.

(** [req.headers[name]] and [process.env.NAME]: a string or undefined. *)
Definition header (headers : gmap string string) (name : string) : JsValue :=
  from_option JStr JUndefined (headers !! name).

(** contextToAppId of the cube.js of step 1 *)
Definition contextToAppId (securityContext : SecurityContext) : string :=
  "CUBEJS_APP_" +:+ to_string (js_or (user_id securityContext) (JStr "default")).

(** const token = authorization.replace('Bearer ', '') *)
Definition bearer_token (authorization : string) : string :=
  remove_first "Bearer " authorization.

Section CheckAuth.

(** [jwt.verify(token, secret)] of the jsonwebtoken package: the decoded
    payload, or [None] when it throws. *)
Variable jwt_verify : string → JsValue → option (gmap string JsValue).

(** checkAuth of the cube.js of step 1.  [env] is [process.env], [headers]
    is [req.headers]; [authorization] is [None] when the caller passes
    undefined, on which [.replace] throws a TypeError outside the try. *)
Definition checkAuth (env headers : gmap string string)
    (authorization : option string) : Settled SecurityContext :=
  if bool_decide (header env "NODE_ENV" = JStr "development") then
    Resolved {|
      user_id := js_or (header headers "x-user-id") (JStr "user1");
      role := js_or (header headers "x-user-role") (JStr "analyst");
      region := js_or (header headers "x-user-region") JNull;
      tenant_id := js_or (header headers "x-tenant-id") (JStr "tenant1") |}
  else
    match authorization with
    | None => Rejected TypeError
    | Some auth =>
        let token := bearer_token auth in
        match jwt_verify token (header env "CUBEJS_API_SECRET") with
        | Some decoded =>
            Resolved {|
              user_id := member decoded "sub";
              role := member decoded "role";
              region := member decoded "region";
              tenant_id := member decoded "tenant_id" |}
        | None => Rejected (Error "Invalid token")
        end
    end.

End CheckAuth.

(** An object with an optional [sql] member. *)
Record Filter := { sql : option string }.

(** const regionalFilter *)
Definition regionalFilter (CUBE : gmap string JsValue) : Filter :=
  {| sql := Some (to_string (member CUBE "customer_region")
                  +:+ " = {securityContext.region.unsafeValue()}") |}.

(** const tenantFilter *)
Definition tenantFilter (CUBE : gmap string JsValue) : Filter :=
  {| sql := Some (to_string (member CUBE "tenant_id")
                  +:+ " = {securityContext.tenant_id.unsafeValue()}") |}.

(** const roleBasedFilter *)
Definition roleBasedFilter (CUBE : gmap string JsValue)
    (securityContext : SecurityContext) : Filter :=
  let role := role securityContext in
  if bool_decide (role = JStr "executive") then
    {| sql := None |}
  else if bool_decide (role = JStr "regional_manager") then
    regionalFilter CUBE
  else if bool_decide (role = JStr "analyst") then
    {| sql := Some (to_string (member CUBE "order_date")
                    +:+ " >= DATE('now', '-2 years')") |}
  else
    {| sql := Some "1 = 0" |}.

(** The roles that [roleBasedFilter] knows. *)
Definition known_role (v : JsValue) : Prop :=
  v = JStr "executive" ∨ v = JStr "regional_manager" ∨ v = JStr "analyst".

End Security.

Module DynamicSchema.

(** The [config] argument of [generateDynamicCube]; a list or object member
    that is undefined, so that the default of the destructuring applies, is
    [None].  The entries of the lists are objects. *)
Record CubeConfig := {
  tableName : JsValue;
  cubeName : JsValue;
  dimensions : option (list (gmap string JsValue));
  measures : option (list (gmap string JsValue));
  joins : option (list (gmap string JsValue));
  security : option (gmap string JsValue);
}.

(** The cube object of the result; [sql_where] and [shown] are there only
    when the spread of the security settings adds them. *)
Record Cube := {
  name : JsValue;
  sql_table : JsValue;
  cube_dimensions : list (gmap string JsValue);
  cube_measures : list (gmap string JsValue);
  cube_joins : list (gmap string JsValue);
  sql_where : option JsValue;
  shown : option JsValue;
}.

(** [x !== false] *)
Definition not_false (v : JsValue) : JsValue :=
  JBool (bool_decide (v ≠ JBool false)).

Definition id_dimension : gmap string JsValue :=
  list_to_map [("name", JStr "id"); ("sql", JStr "id");
               ("type", JStr "number"); ("primary_key", JBool true)].

Definition make_dimension (dim : gmap string JsValue) : gmap string JsValue :=
  list_to_map [("name", member dim "name");
               ("sql", js_or (member dim "sql") (member dim "name"));
               ("type", js_or (member dim "type") (JStr "string"));
               ("description", member dim "description");
               ("shown", not_false (member dim "shown"))].

Definition count_measure : gmap string JsValue :=
  list_to_map [("name", JStr "count"); ("sql", JStr "id");
               ("type", JStr "count")].

Definition make_measure (measure : gmap string JsValue) : gmap string JsValue :=
  list_to_map [("name", member measure "name");
               ("sql", js_or (member measure "sql") (member measure "name"));
               ("type", js_or (member measure "type") (JStr "sum"));
               ("description", member measure "description");
               ("format", member measure "format");
               ("shown", not_false (member measure "shown"))].

Definition make_join (join : gmap string JsValue) : gmap string JsValue :=
  list_to_map [("name", member join "cube");
               ("sql", member join "sql");
               ("relationship",
                js_or (member join "relationship") (JStr "many_to_one"))].

(** [...(v && { key: v })]: the member is added when [v] is truthy. *)
Definition spread_if_truthy (v : JsValue) : option JsValue :=
  if truthy v then Some v else None.

(** const generateDynamicCube; the result is [{ cubes: [cube] }]. *)
Definition generateDynamicCube (config : CubeConfig) : Cube :=
  let dimensions := default [] (dimensions config) in
  let measures := default [] (measures config) in
  let joins := default [] (joins config) in
  let security := default ∅ (security config) in
  {| name := cubeName config;
     sql_table := tableName config;
     cube_dimensions := id_dimension :: (make_dimension <$> dimensions);
     cube_measures := count_measure :: (make_measure <$> measures);
     cube_joins := make_join <$> joins;
     sql_where := spread_if_truthy (member security "sql_where");
     shown := spread_if_truthy (member security "shown") |}.

Record SchemaFile := { fileName : string; content : string }.

(** The file name template: [`generated-cube-${index}.js`]. *)
Definition generated_name (index : nat) : string :=
  "generated-cube-" +:+ pretty index +:+ ".js".

Section SchemaFiles.

(** [JSON.stringify(schema, null, 2)] *)
Variable stringify : Cube → string.

(** dataSchemaFiles, for the [cubes] of the client configuration. *)
Definition dataSchemaFiles (cubes : list CubeConfig) : list SchemaFile :=
  let schemas := generateDynamicCube <$> cubes in
  imap (λ index schema,
          {| fileName := "generated-cube-" +:+ pretty index +:+ ".js";
             content := "module.exports = " +:+ stringify schema +:+ ";" |})
       schemas.

End SchemaFiles.

End DynamicSchema.

Module Analytics.

(** React keys of the sample: a property name or an index. *)
Inductive Key :=
  | KeyStr (s : string)
  | KeyNum (n : nat).

(** The elements that [renderChart] builds: JSX text, an expression child
    [{value}], and a host element with its key, class name and children. *)
Inductive Html :=
  | Txt (s : string)
  | Expr (v : JsValue)
  | Elem (tag : string) (key : option Key) (className : option string)
         (children : list Html).

(** A row of the result set: the properties of the object in the order in
    which [Object.keys] and [Object.values] list them. *)
Definition Row : Type := list (string * JsValue).

(** What a call gives: an element, or a TypeError thrown on the way. *)
Inductive Rendering :=
  | Shows (h : Html)
  | Throws.

(** The header cells: [Object.keys(data[0] || {}).map(key => <th key={key}>)] *)
Definition header_cells (data : list Row) : list Html :=
  (λ key, Elem "th" (Some (KeyStr key)) None [Expr (JStr key)])
    <$> (default [] (head data)).*1.

(** One body row: [Object.values(row).map((value, i) => <td key={i}>)] *)
Definition body_row (index : nat) (row : Row) : Html :=
  Elem "tr" (Some (KeyNum index)) None
       (imap (λ i value, Elem "td" (Some (KeyNum i)) None [Expr value]) row.*2).

(** const kpiValue = data[0] && Object.values(data[0])[0] *)
Definition kpiValue (data : list Row) : JsValue :=
  match data with
  | [] => JUndefined
  | row :: _ => default JUndefined (head row.*2)
  end.

(** const renderChart, as a function of what it closes over: the
    [chartType] prop, undefined when the caller leaves it out, the
    [measures] of the [query] prop, [None] when there are none to index,
    and the [data] of the state. *)
Definition renderChart (chartType : JsValue) (measures : option (list JsValue))
    (data : list Row) : Rendering :=
  let chartType :=
    if bool_decide (chartType = JUndefined) then JStr "table" else chartType in
  if bool_decide (chartType = JStr "table") then
    Shows (Elem "table" None (Some "analytics-table") [
      Elem "thead" None None [Elem "tr" None None (header_cells data)];
      Elem "tbody" None None (imap body_row data)
    ])
  else if bool_decide (chartType = JStr "kpi") then
    match measures with
    | None => Throws
    | Some ms =>
        Shows (Elem "div" None (Some "kpi-card") [
          Elem "div" None (Some "kpi-value") [Expr (kpiValue data)];
          Elem "div" None (Some "kpi-label") [Expr (default JUndefined (head ms))]
        ])
    end
  else
    Shows (Elem "div" None None [Txt "Chart type not supported"]).

(** Reading a rendered table back. *)
Definition children (h : Html) : list Html :=
  match h with
  | Elem _ _ _ cs => cs
  | _ => []
  end.

Definition key_of (h : Html) : option Key :=
  match h with
  | Elem _ k _ _ => k
  | _ => None
  end.

Definition cell_value (h : Html) : JsValue :=
  match h with
  | Elem _ _ _ [Expr v] => v
  | _ => JUndefined
  end.

Definition table_head (h : Html) : list Html :=
  match h with
  | Elem _ _ _ [Elem _ _ _ [Elem _ _ _ ths]; _] => ths
  | _ => []
  end.

Definition table_body (h : Html) : list Html :=
  match h with
  | Elem _ _ _ [_; Elem _ _ _ trs] => trs
  | _ => []
  end.

End Analytics.

(** * Properties *)

(** ** The definitions at work *)

Example clsx_one_argument : clsx ["col col--4"] = "col col--4".
Proof. reflexivity. Qed.

Example copyright_text_2025 :
  SiteConfig.copyright_text 2025
  = "Copyright © 2025 Cube Dev, Inc. Built with Docusaurus.".
Proof. reflexivity. Qed.

Example well_formed_url_rejects :
  Links.well_formed_url <$>
    ["https://"; "http://cube.dev"; "https://cube"; "https://cube.dev/a b"]
  = [false; false; false; false].
Proof. reflexivity. Qed.

Example docs_path_examples :
  Links.docs_path <$> ["/docs/"; "/docs/intro"; "docs/intro"]
  = [false; true; false].
Proof. reflexivity. Qed.

Example resolves_examples :
  Docs.resolves Docs.pages <$> ["/docs/module-1-foundation"; "/docs/nowhere"]
  = [true; false].
Proof. reflexivity. Qed.

(** ** Running the operations *)

Section Running.
Implicit Types (s : Store) (op : Operation) (ops : list Operation).

Lemma HomepageFeatures_run s :
  HomepageFeatures s =
  (features_section (imap feature_element (st_FeatureList s)), s).
Proof. reflexivity. Qed.

Lemma run_op_store op s : (run_op op s).2 = s.
Proof. by destruct op. Qed.

Lemma run_ops_store ops s : (run_ops ops s).2 = s.
Proof.
  induction ops as [|op ops IH]; [done|].
  cbn [run_ops]. unfold mbind, M_bind.
  destruct (run_op op s) as [o s1] eqn:Hop.
  destruct (run_ops ops s1) as [os s2] eqn:Hops. cbn.
  pose proof (run_op_store op s) as H1. rewrite Hop in H1. cbn in H1. subst s1.
  rewrite <- (IH). by rewrite Hops.
Qed.

Lemma run_ops_cons op ops s :
  (run_ops (op :: ops) s).1 = (run_op op s).1 :: (run_ops ops s).1.
Proof.
  cbn [run_ops]. unfold mbind, M_bind.
  pose proof (run_op_store op s) as H1.
  destruct (run_op op s) as [o s1]. cbn in H1. subst s1.
  by destruct (run_ops ops s) as [os s2].
Qed.

(** The outcome at position [i] is the one of the [i]-th operation, run
    on the bindings as they were at the start. *)
Lemma run_ops_lookup ops s i :
  (run_ops ops s).1 !! i = (λ op, (run_op op s).1) <$> ops !! i.
Proof.
  revert i. induction ops as [|op ops IH]; intros i; [done|].
  rewrite run_ops_cons. destruct i as [|i]; [done|]. cbn. apply IH.
Qed.
End Running.

Lemma occurs_in_child n m : n ∈ children_of m → occurs_in n m.
Proof. intros Hin. eapply occurs_below; [exact Hin | constructor]. Qed.

Lemma Feature_shows_title f :
  occurs_in (RText (Features.title f)) (Features.Feature f).
Proof.
  eapply occurs_below; [cbn; right; left|].
  eapply occurs_below; [cbn; left|].
  apply occurs_in_child. cbn. left.
Qed.

Lemma Feature_shows_description f :
  occurs_in (Features.description f) (Features.Feature f).
Proof.
  eapply occurs_below; [cbn; right; left|].
  eapply occurs_below; [cbn; right; left|].
  apply occurs_in_child. cbn. left.
Qed.

(** Rendering goes through [Feature] and on into the description. *)
Lemma render_feature_element idx f :
  render (feature_element idx f) =
  Features.Feature
    {| Features.title := Features.title f; Features.Svg := Features.Svg f;
       Features.description := render (Features.description f) |}.
Proof. reflexivity. Qed.

Lemma render_HomepageFeatures s :
  render (HomepageFeatures s).1 =
  features_section (render <$> imap feature_element (st_FeatureList s)).
Proof. reflexivity. Qed.

(** ** The feature list component *)

Lemma keys_of_imap (l : list Features.FeatureItem) :
  key_of <$> imap feature_element l = Some <$> seq 0 (length l).
Proof.
  rewrite fmap_imap. rewrite <- (imap_seq_0 l Some).
  by apply imap_ext.
Qed.

Lemma imap_in_order {A B} (f : nat → A → B) (l : list A) :
  Forall2 (λ x y, ∃ k, l !! k = Some x ∧ y = f k x) l (imap f l).
Proof.
  revert f. induction l as [|x l IH]; intros f; [constructor|].
  rewrite imap_cons. constructor.
  - by exists 0.
  - eapply Forall2_impl; [apply (IH (f ∘ S))|].
    intros a b (k & Hk & ->). by exists (S k).
Qed.

(** C1: rendering the feature list gives exactly three blocks, one for each
    entry of [FeatureList] and in the order of the declaration; the block of
    an entry is what [Feature] returns for it, and the entry's title and its
    description occur in the block unchanged. *)
Theorem C1_three_blocks_in_declaration_order (year : Z) :
  let blocks := blocks_of (render (HomepageFeatures (init_store year)).1) in
  length blocks = 3 ∧
  Forall2 (λ f b, b = Features.Feature f
                  ∧ occurs_in (RText (Features.title f)) b
                  ∧ occurs_in (Features.description f) b)
          Features.FeatureList blocks.
Proof.
  cbn zeta. rewrite render_HomepageFeatures. split; [reflexivity|].
  cbn.
  repeat (constructor;
          [split_and!;
           [reflexivity | apply Feature_shows_title
                        | apply Feature_shows_description] |]).
  constructor.
Qed.

(** C7: the elements that [HomepageFeatures] builds follow the order of the
    entries and each carries its index as key: with the three declared
    entries the keys are 0, 1, 2; whatever the array holds, the keys are the
    positions, so no two elements share one. *)
Theorem C7_entries_keyed_by_position (year : Z) :
  key_of <$> blocks_of (HomepageFeatures (init_store year)).1
    = [Some 0; Some 1; Some 2]
  ∧ ∀ s : Store,
      let row := blocks_of (HomepageFeatures s).1 in
      key_of <$> row = Some <$> seq 0 (length (st_FeatureList s))
      ∧ NoDup (key_of <$> row)
      ∧ Forall2 (λ f e, ∃ k, st_FeatureList s !! k = Some f
                             ∧ e = RFeature (Some k) (Features.title f)
                                     (Features.Svg f) (Features.description f))
                (st_FeatureList s) row.
Proof.
  split; [reflexivity|]. intros s row. subst row.
  rewrite HomepageFeatures_run. cbn [fst blocks_of features_section].
  rewrite keys_of_imap. split_and!.
  - reflexivity.
  - apply (NoDup_fmap_2 Some), NoDup_seq.
  - apply (imap_in_order feature_element).
Qed.

(** C4: rendering the feature list again gives the same structure: whenever
    and however often [HomepageFeatures] is called, between other
    operations or in another evaluation of the modules, the outcome is the
    same element tree, which renders to the same three blocks. *)
Theorem C4_rendering_is_repeatable
    (y1 y2 : Z) (ops1 ops2 : list Operation) (i j : nat) (r1 r2 : Outcome) :
  ops1 !! i = Some CallHomepageFeatures →
  ops2 !! j = Some CallHomepageFeatures →
  (run_ops ops1 (init_store y1)).1 !! i = Some r1 →
  (run_ops ops2 (init_store y2)).1 !! j = Some r2 →
  r1 = r2
  ∧ r1 = Rendered (features_section (imap feature_element Features.FeatureList))
  ∧ blocks_of (render (features_section (imap feature_element Features.FeatureList)))
    = Features.Feature <$> Features.FeatureList.
Proof.
  intros Hi Hj H1 H2.
  rewrite run_ops_lookup, Hi in H1. rewrite run_ops_lookup, Hj in H2.
  cbn in H1, H2. by simplify_eq.
Qed.

Lemma C4_rendering_is_repeatable_witness :
  let ops1 := [CallHomepageFeatures; CallHomepageFeatures] in
  let ops2 := [ImportConfig; CallHomepageFeatures] in
  let r := Rendered (HomepageFeatures (init_store 2024)).1 in
  ops1 !! 1 = Some CallHomepageFeatures
  ∧ ops2 !! 1 = Some CallHomepageFeatures
  ∧ (run_ops ops1 (init_store 2024)).1 !! 1 = Some r
  ∧ (run_ops ops2 (init_store 2025)).1 !! 1 = Some r
  ∧ (r = r
     ∧ r = Rendered (features_section (imap feature_element Features.FeatureList))
     ∧ blocks_of (render (features_section (imap feature_element Features.FeatureList)))
       = Features.Feature <$> Features.FeatureList).
Proof.
  cbn zeta. do 4 (split; [reflexivity|]).
  apply (C4_rendering_is_repeatable 2024 2025
           [CallHomepageFeatures; CallHomepageFeatures]
           [ImportConfig; CallHomepageFeatures] 1 1);
    reflexivity.
Defined.

(** C8: no operation of the repository changes the configuration record or
    the feature list: after rendering a feature, rendering the feature list
    or handing out the configuration, and after any sequence of these, both
    bindings hold what they held before. *)
Theorem C8_bindings_never_mutated (ops : list Operation) (s : Store) :
  (∀ op, st_config (run_op op s).2 = st_config s
         ∧ st_FeatureList (run_op op s).2 = st_FeatureList s)
  ∧ st_config (run_ops ops s).2 = st_config s
  ∧ st_FeatureList (run_ops ops s).2 = st_FeatureList s.
Proof.
  split; [intros op; by rewrite run_op_store|].
  by rewrite run_ops_store.
Qed.

(** ** The site configuration *)

(** C3: whatever the clock, the configuration asks that a broken link fail
    the build ('throw') and that a broken markdown link only warn. *)
Theorem C3_broken_link_policy (year : Z) :
  SiteConfig.onBrokenLinks (SiteConfig.config year) = SiteConfig.Throw
  ∧ SiteConfig.onBrokenMarkdownLinks (SiteConfig.config year) = SiteConfig.Warn
  ∧ SiteConfig.severity_literal (SiteConfig.onBrokenLinks (SiteConfig.config year))
    = "throw"
  ∧ SiteConfig.severity_literal
      (SiteConfig.onBrokenMarkdownLinks (SiteConfig.config year)) = "warn".
Proof. by split_and!. Qed.

Lemma string_app_cons (c : ascii) (a b : string) :
  String c a +:+ b = String c (a +:+ b).
Proof. reflexivity. Qed.

Lemma string_app_length (a b : string) :
  String.length (a +:+ b) = String.length a + String.length b.
Proof.
  induction a as [|c a IH]; [done|].
  rewrite string_app_cons. cbn [String.length]. by rewrite IH.
Qed.

Lemma string_app_inv_tail (a b s : string) : a +:+ s = b +:+ s → a = b.
Proof.
  revert b. induction a as [|c a IH]; intros [|d b] H.
  - done.
  - apply (f_equal String.length) in H.
    rewrite !string_app_length in H. cbn [String.length] in H. lia.
  - apply (f_equal String.length) in H.
    rewrite !string_app_length in H. cbn [String.length] in H. lia.
  - rewrite !string_app_cons in H. injection H as -> H. f_equal. by apply IH.
Qed.

(** The year can be read off the copyright line. *)
Lemma copyright_text_inj : Inj (=) (=) SiteConfig.copyright_text.
Proof.
  intros y1 y2 H. unfold SiteConfig.copyright_text in H.
  apply (inj (String.app _)) in H.
  apply string_app_inv_tail in H. by apply (inj pretty).
Qed.

(** C10: two evaluations of the configuration module under different clock
    years give records that agree in every member except the copyright line
    of the footer, and their copyright lines differ; under the same year the
    records are the same. *)
Theorem C10_only_copyright_depends_on_clock (y1 y2 : Z) :
  y1 ≠ y2 →
  let c1 := SiteConfig.config y1 in
  let c2 := SiteConfig.config y2 in
  let t1 := SiteConfig.themeConfig c1 in
  let t2 := SiteConfig.themeConfig c2 in
  SiteConfig.title c1 = SiteConfig.title c2
  ∧ SiteConfig.tagline c1 = SiteConfig.tagline c2
  ∧ SiteConfig.favicon c1 = SiteConfig.favicon c2
  ∧ SiteConfig.future c1 = SiteConfig.future c2
  ∧ SiteConfig.url c1 = SiteConfig.url c2
  ∧ SiteConfig.baseUrl c1 = SiteConfig.baseUrl c2
  ∧ SiteConfig.organizationName c1 = SiteConfig.organizationName c2
  ∧ SiteConfig.projectName c1 = SiteConfig.projectName c2
  ∧ SiteConfig.onBrokenLinks c1 = SiteConfig.onBrokenLinks c2
  ∧ SiteConfig.onBrokenMarkdownLinks c1 = SiteConfig.onBrokenMarkdownLinks c2
  ∧ SiteConfig.i18n c1 = SiteConfig.i18n c2
  ∧ SiteConfig.presets c1 = SiteConfig.presets c2
  ∧ SiteConfig.image t1 = SiteConfig.image t2
  ∧ SiteConfig.navbar t1 = SiteConfig.navbar t2
  ∧ SiteConfig.prism t1 = SiteConfig.prism t2
  ∧ SiteConfig.style (SiteConfig.footer t1) = SiteConfig.style (SiteConfig.footer t2)
  ∧ SiteConfig.links (SiteConfig.footer t1) = SiteConfig.links (SiteConfig.footer t2)
  ∧ SiteConfig.copyright (SiteConfig.footer t1)
    ≠ SiteConfig.copyright (SiteConfig.footer t2)
  ∧ SiteConfig.copyright (SiteConfig.footer t1) = SiteConfig.copyright_text y1
  ∧ SiteConfig.copyright (SiteConfig.footer t2) = SiteConfig.copyright_text y2.
Proof.
  intros Hne c1 c2 t1 t2. split_and!; try reflexivity.
  cbn. intros H. by apply Hne, copyright_text_inj.
Qed.

Lemma C10_only_copyright_depends_on_clock_witness :
  (2024 ≠ 2025)%Z
  ∧ SiteConfig.copyright (SiteConfig.footer (SiteConfig.themeConfig (SiteConfig.config 2024)))
    ≠ SiteConfig.copyright (SiteConfig.footer (SiteConfig.themeConfig (SiteConfig.config 2025)))
  ∧ SiteConfig.navbar (SiteConfig.themeConfig (SiteConfig.config 2024))
    = SiteConfig.navbar (SiteConfig.themeConfig (SiteConfig.config 2025)).
Proof.
  assert (2024 ≠ 2025)%Z as Hne by lia.
  split; [exact Hne|].
  pose proof (C10_only_copyright_depends_on_clock 2024 2025 Hne) as H.
  cbn zeta in H. split; [apply H | apply H].
Defined.

(** ** Navigation and footer entries *)

Section Entries.
Import SiteConfig Links.

Lemma sidebar_target_no_path_or_url e :
  sidebar_target e → ¬ internal_target e ∧ ¬ external_target e.
Proof.
  intros (_ & _ & Hto & Hhref). split.
  - intros [(p & Hp & _) _]. congruence.
  - intros [(u & Hu & _) _]. congruence.
Qed.

Lemma internal_not_external e : internal_target e → ¬ external_target e.
Proof. intros [_ Hhref] [(u & Hu & _) _]. congruence. Qed.

Ltac target_kind :=
  first
    [ left; split_and!; [reflexivity | by eexists | reflexivity | reflexivity]
    | right; left; split; [eexists; split; reflexivity | reflexivity]
    | right; right; split; [eexists; split; reflexivity | reflexivity] ].

Lemma every_entry_has_a_label year :
  Forall nonempty_label (all_entries (config year)).
Proof. repeat (constructor; [by eexists|]). constructor. Qed.

Lemma every_entry_has_one_target_kind year :
  Forall (λ e, sidebar_target e ∨ internal_target e ∨ external_target e)
         (all_entries (config year)).
Proof. repeat (constructor; [target_kind|]). constructor. Qed.

Lemma navbar_entries_kinds year :
  ∃ rest, navbar_entries (config year) = training_modules_item :: rest
          ∧ sidebar_target training_modules_item
          ∧ Forall external_target rest.
Proof.
  eexists. split; [reflexivity|]. split.
  - split_and!; [reflexivity | by eexists | reflexivity | reflexivity].
  - repeat (constructor; [split; [eexists; split; reflexivity | reflexivity]|]).
    constructor.
Qed.

Lemma footer_entries_kinds year :
  Forall (λ e, internal_target e ∨ external_target e)
         (footer_entries (config year)).
Proof.
  repeat (constructor;
          [first [left; split; [eexists; split; reflexivity | reflexivity]
                 | right; split; [eexists; split; reflexivity | reflexivity]]|]).
  constructor.
Qed.

Lemma landing_page_resolves (landing route : string) :
  landing ∈ Docs.candidates route →
  Docs.resolves (Site.repository_pages landing) route = true.
Proof.
  intros Hin. apply bool_decide_eq_true, Exists_exists.
  exists landing. split; [exact Hin | left].
Qed.

Lemma module_routes_resolve (landing : string) :
  Forall (λ r, Docs.resolves (Site.repository_pages landing) r = true)
         Site.module_routes.
Proof.
  apply Forall_forall. intros r Hr.
  apply bool_decide_eq_true, Exists_exists.
  exists (Site.index_page r). split.
  - vm_compute in Hr. set_unfold in Hr.
    destruct Hr as [->|[->|[->|[->|[->|[->|[->|[]]]]]]]]; right; left.
  - right. by apply (list_elem_of_fmap_2 Site.index_page).
Qed.

(** The module pages whose files the sources name are where the links of
    the landing page put them. *)
Lemma named_pages_are_module_pages : Forall (λ f, f ∈ Site.module_pages) Docs.pages.
Proof.
  repeat (constructor;
          [apply list_elem_of_lookup;
           first [by exists 0 | by exists 1 | by exists 2 | by exists 3
                 | by exists 4 | by exists 5 | by exists 6]|]).
  constructor.
Qed.




(** C9 fails for the first navbar item: it has no [to] and no [href]. *)
Lemma C9_sidebar_item_has_neither_kind :
  training_modules_item ∈ all_entries (config 2025)
  ∧ ¬ claimed_one_target training_modules_item
  ∧ ¬ Forall claimed_one_target (all_entries (config 2025)).
Proof.
  assert (¬ claimed_one_target training_modules_item) as Hno.
  { intros [[(p & Hp & _) _]|[(u & Hu & _) _]]; discriminate. }
  split_and!; [left | exact Hno |].
  intros H. by apply Forall_cons_1 in H as [H _].
Qed.

(** C9, amended: no entry has both a [to] and an [href].  The navbar's
    docSidebar item has neither and names the sidebar 'tutorialSidebar';
    every other navbar item has an https [href] and no [to]; every footer
    item has exactly one of the two, a [to] under /docs/ or an https
    [href]. *)
Theorem C9_one_target_kind_per_entry (year : Z) :
  Forall (λ e, ¬ (is_Some (to e) ∧ is_Some (href e))) (all_entries (config year))
  ∧ (∃ rest, navbar_entries (config year) = training_modules_item :: rest
             ∧ sidebar_target training_modules_item
             ∧ Forall external_target rest)
  ∧ (¬ internal_target training_modules_item
     ∧ ¬ external_target training_modules_item)
  ∧ Forall (λ e, (internal_target e ∧ ¬ external_target e)
                 ∨ (external_target e ∧ ¬ internal_target e))
           (footer_entries (config year)).
Proof.
  split_and!.
  - eapply Forall_impl; [apply every_entry_has_one_target_kind|].
    intros e [Hs|[Hi|He]] [[p Hp] [u Hu]].
    + destruct Hs as (_ & _ & Hto & _). congruence.
    + destruct Hi as [_ Hhref]. congruence.
    + destruct He as [_ Hto]. congruence.
  - apply navbar_entries_kinds.
  - destruct (navbar_entries_kinds year) as (_ & _ & Hside & _).
    by apply sidebar_target_no_path_or_url.
  - destruct (navbar_entries_kinds year) as (_ & _ & Hside & _).
    by apply sidebar_target_no_path_or_url.
  - eapply Forall_impl; [apply footer_entries_kinds|].
    intros e [Hi|He]; [left | right]; split; try done.
    + by apply internal_not_external.
    + intros Hi. by apply (internal_not_external e Hi).
Qed.

End Entries.

(** ** The rendered footer and the rendered site *)

Section Rendered.
Import SiteConfig Links Theme.

Lemma column_title_footer_column g : column_title (footer_column g) = group_title g.
Proof. reflexivity. Qed.

Lemma column_labels_footer_column g :
  column_labels (footer_column g) = label_text <$> group_items g.
Proof.
  unfold footer_column, column_labels.
  rewrite <- list_fmap_compose. by apply list_fmap_ext.
Qed.

Lemma rendered_footer_titles (f : Footer) :
  column_title <$> rendered_columns (render_footer f) = group_title <$> links f.
Proof.
  cbn [render_footer rendered_columns].
  rewrite <- list_fmap_compose. by apply list_fmap_ext.
Qed.

Lemma rendered_footer_labels (f : Footer) :
  column_labels <$> rendered_columns (render_footer f)
  = (λ g, label_text <$> group_items g) <$> links f.
Proof.
  cbn [render_footer rendered_columns].
  rewrite <- list_fmap_compose. apply list_fmap_ext.
  intros _ g _. apply column_labels_footer_column.
Qed.

(** C5: the rendered footer has its columns in the order in which the link
    groups are declared (Training, Cube Resources, Support) and, in each
    column, the links in the order in which the group declares its items;
    this holds for any footer configuration. *)
Theorem C5_footer_order_preserved (year : Z) :
  let f := footer (themeConfig (config year)) in
  let cols := rendered_columns (render_footer f) in
  column_title <$> cols = ["Training"; "Cube Resources"; "Support"]
  ∧ column_labels <$> cols =
      [ ["Getting Started"; "Module 1: Foundation"; "Module 2: Getting Started"];
        ["Cube.dev"; "Cube Cloud"; "Documentation"; "Community Slack"];
        ["GitHub Issues"; "Stack Overflow"; "Partner Program"] ]
  ∧ ∀ f' : Footer,
      column_title <$> rendered_columns (render_footer f') = group_title <$> links f'
      ∧ column_labels <$> rendered_columns (render_footer f')
        = (λ g, label_text <$> group_items g) <$> links f'.
Proof.
  intros f cols. split_and!; [reflexivity | reflexivity |].
  intros f'. split; [apply rendered_footer_titles | apply rendered_footer_labels].
Qed.

Lemma rendered_cards (s : Store) :
  st_FeatureList s = Features.FeatureList →
  Forall2 (λ f b, b = Features.Feature f
                  ∧ occurs_in (RText (Features.title f)) b
                  ∧ occurs_in (Features.description f) b)
          Features.FeatureList (blocks_of (render (HomepageFeatures s).1)).
Proof.
  intros Hs. rewrite render_HomepageFeatures, Hs. cbn.
  repeat (constructor;
          [split_and!;
           [reflexivity | apply Feature_shows_title
                        | apply Feature_shows_description] |]).
  constructor.
Qed.

(** C6: the site output has a feature section of three cards, one for each
    feature entry with its title and description; a documentation tree of
    the landing page and the modules 1 to 7, every one of which resolves to
    a page of the repository; a left sidebar that lists the tree; and a top
    navigation bar whose first item leads to an internal documentation
    page, the first of the sidebar, and whose other items lead to
    well-formed external https URLs.  [landing] is the file of the landing
    page and [route] the path it is served under. *)
Theorem C6_site_output (year : Z) (landing route : string) :
  landing ∈ Docs.candidates route →
  let site := (Site.build_site route (init_store year)).1 in
  let pages := Site.repository_pages landing in
  let cards := blocks_of (Site.feature_section site) in
  length cards = 3
  ∧ Forall2 (λ f b, b = Features.Feature f
                    ∧ occurs_in (RText (Features.title f)) b
                    ∧ occurs_in (Features.description f) b)
            Features.FeatureList cards
  ∧ Site.documentation_tree site = route :: Site.module_routes
  ∧ Docs.digit_after "/docs/module-" <$> Site.module_routes = Some <$> seq 1 7
  ∧ Docs.module_number <$> Docs.LearningPath = Some <$> seq 1 7
  ∧ Docs.target_number <$> Docs.LearningPath = Some <$> seq 1 7
  ∧ Forall (λ r, Docs.resolves pages r = true) (Site.documentation_tree site)
  ∧ Forall (λ f, f ∈ pages) Docs.pages
  ∧ Site.left_sidebar site = Site.documentation_tree site
  ∧ Site.top_navigation site
    = [ ("Training Modules", Some (Site.InternalPage route));
        ("Cube.dev", Some (Site.ExternalUrl "https://cube.dev"));
        ("Cube Cloud", Some (Site.ExternalUrl "https://cubecloud.dev"));
        ("GitHub", Some (Site.ExternalUrl "https://github.com/cube-js/cube")) ]
  ∧ Forall (λ item : string * option Site.Destination,
              item.1 ≠ ""
              ∧ match item.2 with
                | Some (Site.InternalPage r) =>
                    r ∈ Site.documentation_tree site
                    ∧ Docs.resolves pages r = true
                | Some (Site.ExternalUrl u) => well_formed_url u = true
                | None => False
                end)
           (Site.top_navigation site).
Proof.
  intros Hlanding site pages cards.
  assert (Docs.resolves pages route = true) as Hroute
    by by apply landing_page_resolves.
  split_and!.
  - reflexivity.
  - by apply (rendered_cards (init_store year)).
  - reflexivity.
  - reflexivity.
  - reflexivity.
  - reflexivity.
  - constructor; [exact Hroute | apply module_routes_resolve].
  - eapply Forall_impl; [apply named_pages_are_module_pages|].
    intros f Hf. by right.
  - reflexivity.
  - reflexivity.
  - change (Site.top_navigation site)
      with [ ("Training Modules", Some (Site.InternalPage route));
             ("Cube.dev", Some (Site.ExternalUrl "https://cube.dev"));
             ("Cube Cloud", Some (Site.ExternalUrl "https://cubecloud.dev"));
             ("GitHub", Some (Site.ExternalUrl "https://github.com/cube-js/cube")) ].
    constructor; [split; [done | split; [left | exact Hroute]]|].
    repeat (constructor; [split; [done | reflexivity]|]).
    constructor.
Qed.

End Rendered.

Lemma C6_site_output_witness :
  let site := (Site.build_site "/docs/intro" (init_store 2025)).1 in
  "docs/intro.md" ∈ Docs.candidates "/docs/intro"
  ∧ length (blocks_of (Site.feature_section site)) = 3
  ∧ Site.left_sidebar site = Site.documentation_tree site
  ∧ Forall (λ r, Docs.resolves (Site.repository_pages "docs/intro.md") r = true)
           (Site.documentation_tree site).
Proof.
  assert ("docs/intro.md" ∈ Docs.candidates "/docs/intro") as Hin by left.
  pose proof (C6_site_output 2025 "docs/intro.md" "/docs/intro" Hin) as H.
  cbn zeta in H. split; [exact Hin|]. split_and!; apply H.
Defined.

(** ** The feature list, whatever the array holds *)

Lemma render_imap_feature_element (l : list Features.FeatureItem) :
  render <$> imap feature_element l =
  (λ f, Features.Feature
          {| Features.title := Features.title f; Features.Svg := Features.Svg f;
             Features.description := render (Features.description f) |}) <$> l.
Proof.
  rewrite fmap_imap. rewrite <- imap_const. by apply imap_ext.
Qed.

(** X1: whatever the array bound to [FeatureList] holds, the rendered row
    has one block for each entry, in the order of the array: the block of an
    entry is what [Feature] returns for it, with the description rendered
    in turn, and does not depend on the entry's position.  An empty array
    gives an empty row. *)
Theorem rendered_blocks_follow_the_array (s : Store) :
  blocks_of (render (HomepageFeatures s).1) =
  (λ f, Features.Feature
          {| Features.title := Features.title f; Features.Svg := Features.Svg f;
             Features.description := render (Features.description f) |})
    <$> st_FeatureList s.
Proof.
  rewrite render_HomepageFeatures. cbn [blocks_of features_section].
  apply render_imap_feature_element.
Qed.

(** X2: a block determines the entry it was made from: [Feature] gives the
    same block for two entries only if they have the same title, graphic
    and description. *)
Theorem Feature_block_determines_entry (f g : Features.FeatureItem) :
  Features.Feature f = Features.Feature g ↔ f = g.
Proof.
  split; [|by intros ->].
  destruct f as [tf sf df], g as [tg sg dg]. unfold Features.Feature. cbn.
  intros H. by simplify_eq.
Qed.

(** ** The security samples of module 4 *)

Section SecuritySamples.
Import Security.
Context (jwt_verify : string → JsValue → option (gmap string JsValue)).
Implicit Types (env headers : gmap string string) (CUBE : gmap string JsValue).

Lemma js_or_truthy a b : truthy b = true → truthy (js_or a b) = true.
Proof. intros Hb. unfold js_or. by destruct (truthy a) eqn:Ha. Qed.

Lemma header_development env :
  env !! "NODE_ENV" = Some "development" →
  header env "NODE_ENV" = JStr "development".
Proof. intros H. unfold header. by rewrite H. Qed.

Lemma header_or_default headers name (d : JsValue) :
  js_or (header headers name) d = d
  ∨ ∃ s, js_or (header headers name) d = JStr s ∧ s ≠ "".
Proof.
  unfold js_or, header. destruct (headers !! name) as [s|]; cbn; [|by left].
  case_bool_decide; [right; by exists s | by left].
Qed.

(** X3: with NODE_ENV set to 'development', [checkAuth] admits every
    request, with or without an authorization value and whatever the
    verification of a token would say; the user id, the role and the
    tenant id of the context it returns are non-empty strings, hence
    truthy, and its region is a non-empty string or null. *)
Theorem checkAuth_development_admits_all env headers authorization :
  env !! "NODE_ENV" = Some "development" →
  ∃ ctx, checkAuth jwt_verify env headers authorization = Resolved ctx
         ∧ truthy (user_id ctx) = true
         ∧ truthy (role ctx) = true
         ∧ truthy (tenant_id ctx) = true
         ∧ (∃ s, user_id ctx = JStr s ∧ s ≠ "")
         ∧ (∃ s, role ctx = JStr s ∧ s ≠ "")
         ∧ (∃ s, tenant_id ctx = JStr s ∧ s ≠ "")
         ∧ (region ctx = JNull ∨ ∃ s, region ctx = JStr s ∧ s ≠ "").
Proof.
  intros Hdev. unfold checkAuth.
  rewrite (header_development env Hdev), bool_decide_eq_true_2 by done.
  eexists. split; [reflexivity|]. cbn [user_id role tenant_id region].
  split_and!; try by apply js_or_truthy.
  - destruct (header_or_default headers "x-user-id" (JStr "user1")) as [->|?];
      [by exists "user1" | done].
  - destruct (header_or_default headers "x-user-role" (JStr "analyst")) as [->|?];
      [by exists "analyst" | done].
  - destruct (header_or_default headers "x-tenant-id" (JStr "tenant1")) as [->|?];
      [by exists "tenant1" | done].
  - destruct (header_or_default headers "x-user-region" JNull) as [->|?]; auto.
Qed.

(** X5: outside development mode the headers play no role and the outcome
    is decided by the verification alone: a missing authorization value is
    a TypeError, a token that does not verify is rejected as 'Invalid
    token', and one that verifies gives the context made of the claims
    sub, role, region and tenant_id of the payload. *)
Theorem checkAuth_production env headers authorization :
  header env "NODE_ENV" ≠ JStr "development" →
  (∀ headers', checkAuth jwt_verify env headers' authorization
               = checkAuth jwt_verify env headers authorization)
  ∧ (authorization = None ↔
     checkAuth jwt_verify env headers authorization = Rejected TypeError)
  ∧ (∀ auth, authorization = Some auth →
       (jwt_verify (bearer_token auth) (header env "CUBEJS_API_SECRET") = None ↔
        checkAuth jwt_verify env headers authorization
        = Rejected (Error "Invalid token"))
       ∧ ∀ decoded,
           jwt_verify (bearer_token auth) (header env "CUBEJS_API_SECRET")
           = Some decoded →
           checkAuth jwt_verify env headers authorization
           = Resolved {| user_id := member decoded "sub";
                          role := member decoded "role";
                          region := member decoded "region";
                          tenant_id := member decoded "tenant_id" |}).
Proof.
  intros Hprod. unfold checkAuth. rewrite bool_decide_eq_false_2 by done.
  split_and!.
  - done.
  - destruct authorization as [auth|]; [|done].
    cbn. destruct (jwt_verify _ _); naive_solver.
  - intros auth ->. cbn. split.
    + destruct (jwt_verify _ _); naive_solver.
    + by intros decoded ->.
Qed.

Lemma remove_first_absent (pat s : string) :
  includes pat s = false → remove_first pat s = s.
Proof.
  induction s as [|c s IH]; intros H.
  - cbn in *. by destruct (Links.strip_prefix pat ""). 
  - cbn in *. destruct (Links.strip_prefix pat (String c s)); [done|].
    by rewrite IH.
Qed.

(** X4: the scheme in front of the token is optional: the authorization
    values 'Bearer t' and 't' are treated alike, provided 't' does not
    itself contain 'Bearer '. *)
Theorem checkAuth_scheme_optional env headers (t : string) :
  includes "Bearer " t = false →
  checkAuth jwt_verify env headers (Some ("Bearer " +:+ t))
  = checkAuth jwt_verify env headers (Some t).
Proof.
  intros Habs. unfold checkAuth, bearer_token.
  rewrite (remove_first_absent _ t Habs).
  by change (remove_first "Bearer " ("Bearer " +:+ t)) with t.
Qed.

End SecuritySamples.

Lemma checkAuth_development_admits_all_witness :
  ∃ ctx, Security.checkAuth (λ _ _, None) {["NODE_ENV" := "development"]} ∅ None
         = Security.Resolved ctx
         ∧ truthy (Security.user_id ctx) = true
         ∧ truthy (Security.role ctx) = true
         ∧ truthy (Security.tenant_id ctx) = true
         ∧ (∃ s, Security.user_id ctx = JStr s ∧ s ≠ "")
         ∧ (∃ s, Security.role ctx = JStr s ∧ s ≠ "")
         ∧ (∃ s, Security.tenant_id ctx = JStr s ∧ s ≠ "")
         ∧ (Security.region ctx = JNull
            ∨ ∃ s, Security.region ctx = JStr s ∧ s ≠ "").
Proof.
  apply (checkAuth_development_admits_all (λ _ _, None)
           {["NODE_ENV" := "development"]} ∅ None).
  reflexivity.
Defined.

Lemma checkAuth_production_witness :
  Security.header ∅ "NODE_ENV" ≠ JStr "development"
  ∧ (@None string = None ↔
     Security.checkAuth (λ _ _, None) ∅ ∅ None = Security.Rejected Security.TypeError).
Proof.
  assert (Security.header ∅ "NODE_ENV" ≠ JStr "development") as Hprod by done.
  split; [exact Hprod|].
  apply (checkAuth_production (λ _ _, None) ∅ ∅ None Hprod).
Defined.

Lemma checkAuth_scheme_optional_witness :
  includes "Bearer " "abc.def.ghi" = false
  ∧ Security.checkAuth (λ _ _, None) ∅ ∅ (Some ("Bearer " +:+ "abc.def.ghi"))
    = Security.checkAuth (λ _ _, None) ∅ ∅ (Some "abc.def.ghi").
Proof.
  split; [reflexivity|].
  apply (checkAuth_scheme_optional (λ _ _, None) ∅ ∅ "abc.def.ghi").
  reflexivity.
Defined.

Section RoleFilters.
Import Security.
Implicit Types (CUBE : gmap string JsValue) (ctx : SecurityContext).

Lemma suffixed_not_deny (a b : string) :
  (5 < String.length b)%nat → a +:+ b ≠ "1 = 0".
Proof.
  intros Hlen H. apply (f_equal String.length) in H.
  rewrite string_app_length in H. cbn in H. lia.
Qed.

(** X6: [roleBasedFilter] denies by default: the filter is [1 = 0] exactly
    when the role of the context is none of 'executive', 'regional_manager'
    and 'analyst'; this includes a role that is missing, null or not a
    string. *)
Theorem roleBasedFilter_default_deny CUBE ctx :
  roleBasedFilter CUBE ctx = {| sql := Some "1 = 0" |} ↔ ¬ known_role (role ctx).
Proof.
  unfold roleBasedFilter, known_role. cbn zeta.
  repeat case_bool_decide.
  - split; [done|]. intros []. auto.
  - split; [|intros []; auto]. unfold regionalFilter. intros Heq.
    injection Heq as Heq. by apply suffixed_not_deny in Heq; [|cbn; lia].
  - split; [|intros []; auto]. intros Heq.
    injection Heq as Heq. by apply suffixed_not_deny in Heq; [|cbn; lia].
  - split; [|done]. intros _ [?|[?|?]]; done.
Qed.

(** X7: only an executive gets a filter without a condition. *)
Theorem roleBasedFilter_unrestricted_iff_executive CUBE ctx :
  sql (roleBasedFilter CUBE ctx) = None ↔ role ctx = JStr "executive".
Proof.
  unfold roleBasedFilter. cbn zeta. repeat case_bool_decide; naive_solver.
Qed.

(** X8: in development mode a request is denied only if its x-user-role
    header names an unknown role: without the header, or with an empty
    one, the request is served with the filter of an analyst. *)
Theorem development_role_from_header
    (jwt_verify : string → JsValue → option (gmap string JsValue))
    (env headers : gmap string string) (authorization : option string) CUBE :
  env !! "NODE_ENV" = Some "development" →
  ∃ ctx, checkAuth jwt_verify env headers authorization = Resolved ctx
    ∧ (roleBasedFilter CUBE ctx = {| sql := Some "1 = 0" |} ↔
       ∃ r, headers !! "x-user-role" = Some r ∧ r ≠ "" ∧ ¬ known_role (JStr r))
    ∧ (headers !! "x-user-role" = None ∨ headers !! "x-user-role" = Some "" →
       roleBasedFilter CUBE ctx
       = {| sql := Some (to_string (member CUBE "order_date")
                         +:+ " >= DATE('now', '-2 years')") |}).
Proof.
  intros Hdev. unfold checkAuth.
  rewrite (header_development env Hdev), bool_decide_eq_true_2 by done.
  eexists. split; [reflexivity|].
  rewrite roleBasedFilter_default_deny. cbn [role].
  unfold header, js_or.
  destruct (headers !! "x-user-role") as [r|] eqn:Hr; cbn.
  - case_bool_decide as Hne; split.
    + split; [intros H; by exists r | by intros (r' & [= <-] & _ & H)].
    + intros [|[= ->]]; done.
    + split; [intros H; destruct H; unfold known_role; auto
             | intros (r' & [= <-] & Hr' & _); by destruct Hne].
    + intros _. reflexivity.
  - split.
    + split; [intros H; destruct H; unfold known_role; auto
             | by intros (r' & ? & _)].
    + intros _. reflexivity.
Qed.

(** X9: [contextToAppId] keeps users apart: two contexts whose user ids are
    non-empty strings get the same application id only if the ids are the
    same. *)
Theorem contextToAppId_separates_users ctx1 ctx2 (u1 u2 : string) :
  user_id ctx1 = JStr u1 → user_id ctx2 = JStr u2 → u1 ≠ "" → u2 ≠ "" →
  contextToAppId ctx1 = contextToAppId ctx2 ↔ u1 = u2.
Proof.
  intros H1 H2 Hu1 Hu2. unfold contextToAppId, js_or.
  rewrite H1, H2. cbn. rewrite !bool_decide_eq_true_2 by done. cbn.
  split; [|by intros ->]. intros H. by apply (inj (String.app _)) in H.
Qed.

(** X10: a context without a user id, or with an empty, null or zero one,
    shares its application id with the user whose id is 'default'. *)
Theorem contextToAppId_anonymous_is_default ctx ctx' :
  truthy (user_id ctx) = false → user_id ctx' = JStr "default" →
  contextToAppId ctx = contextToAppId ctx'
  ∧ contextToAppId ctx = "CUBEJS_APP_default".
Proof.
  intros Hf Hd. unfold contextToAppId, js_or. rewrite Hf, Hd. done.
Qed.

End RoleFilters.

Lemma development_role_from_header_witness :
  ∃ ctx, Security.checkAuth (λ _ _, None) {["NODE_ENV" := "development"]}
           {["x-user-role" := "intern"]} None = Security.Resolved ctx
    ∧ (Security.roleBasedFilter ∅ ctx = {| Security.sql := Some "1 = 0" |} ↔
       ∃ r, ({["x-user-role" := "intern"]} : gmap string string) !! "x-user-role"
            = Some r ∧ r ≠ "" ∧ ¬ Security.known_role (JStr r))
    ∧ (({["x-user-role" := "intern"]} : gmap string string) !! "x-user-role" = None
       ∨ ({["x-user-role" := "intern"]} : gmap string string) !! "x-user-role"
         = Some "" →
       Security.roleBasedFilter ∅ ctx
       = {| Security.sql := Some (to_string (member ∅ "order_date")
                                  +:+ " >= DATE('now', '-2 years')") |}).
Proof.
  apply (development_role_from_header (λ _ _, None)
           {["NODE_ENV" := "development"]} {["x-user-role" := "intern"]} None ∅).
  reflexivity.
Defined.

Lemma contextToAppId_separates_users_witness :
  let ctx u := {| Security.user_id := JStr u; Security.role := JUndefined;
                  Security.region := JUndefined; Security.tenant_id := JUndefined |} in
  Security.contextToAppId (ctx "alice") = Security.contextToAppId (ctx "bob")
  ↔ "alice" = "bob".
Proof.
  intros ctx.
  apply (contextToAppId_separates_users (ctx "alice") (ctx "bob") "alice" "bob");
    by first [reflexivity | discriminate].
Defined.

Lemma contextToAppId_anonymous_is_default_witness :
  let ctx v := {| Security.user_id := v; Security.role := JUndefined;
                  Security.region := JUndefined; Security.tenant_id := JUndefined |} in
  Security.contextToAppId (ctx JUndefined) = Security.contextToAppId (ctx (JStr "default"))
  ∧ Security.contextToAppId (ctx JUndefined) = "CUBEJS_APP_default".
Proof.
  intros ctx.
  apply (contextToAppId_anonymous_is_default (ctx JUndefined) (ctx (JStr "default")));
    reflexivity.
Defined.

(** ** The schema generator of module 7 *)

Section GeneratedCubes.
Import DynamicSchema.
Implicit Types (config : CubeConfig) (dim : gmap string JsValue).

Lemma make_dimension_no_primary_key dim : make_dimension dim !! "primary_key" = None.
Proof. reflexivity. Qed.

Lemma make_dimension_type dim :
  member (make_dimension dim) "type" = js_or (member dim "type") (JStr "string").
Proof. reflexivity. Qed.

Lemma configured_dimensions_no_primary_key (dims : list (gmap string JsValue)) :
  filter (λ d : gmap string JsValue, is_Some (d !! "primary_key"))
         (make_dimension <$> dims) = [].
Proof.
  induction dims as [|dim dims IH]; [done|].
  rewrite fmap_cons, filter_cons_False; [done|].
  rewrite make_dimension_no_primary_key. by intros [? ?].
Qed.

(** X11: whatever the configuration, the generated cube has the dimension
    'id' first and it is the only dimension with a primary_key member, also
    when a configured dimension asks for one; the measure 'count' comes
    first; there is one further dimension, measure and join for each
    configured one, and none when the configuration leaves the list out. *)
Theorem generated_cube_one_primary_key config :
  let cube := generateDynamicCube config in
  head (cube_dimensions cube) = Some id_dimension
  ∧ filter (λ d : gmap string JsValue, is_Some (d !! "primary_key"))
           (cube_dimensions cube) = [id_dimension]
  ∧ head (cube_measures cube) = Some count_measure
  ∧ length (cube_dimensions cube) = S (length (default [] (dimensions config)))
  ∧ length (cube_measures cube) = S (length (default [] (measures config)))
  ∧ length (cube_joins cube) = length (default [] (joins config)).
Proof.
  intros cube. subst cube. unfold generateDynamicCube.
  cbn [cube_dimensions cube_measures cube_joins head length].
  split_and!; try done.
  - rewrite filter_cons_True by (by eexists).
    by rewrite configured_dimensions_no_primary_key.
  - by rewrite length_fmap.
  - by rewrite length_fmap.
  - by rewrite length_fmap.
Qed.

(** X12: the defaults leave no member untyped: every generated dimension
    and measure has a truthy type and every generated join a truthy
    relationship, whatever the configured entries hold. *)
Theorem generated_members_typed config :
  let cube := generateDynamicCube config in
  Forall (λ d, truthy (member d "type") = true) (cube_dimensions cube)
  ∧ Forall (λ m, truthy (member m "type") = true) (cube_measures cube)
  ∧ Forall (λ j, truthy (member j "relationship") = true) (cube_joins cube).
Proof.
  cbn. split_and!.
  - constructor; [done|]. apply Forall_fmap, Forall_forall. intros dim _.
    by apply js_or_truthy.
  - constructor; [done|]. apply Forall_fmap, Forall_forall. intros m _.
    by apply js_or_truthy.
  - apply Forall_fmap, Forall_forall. intros j _. by apply js_or_truthy.
Qed.

Lemma member_is_false (o : gmap string JsValue) k :
  member o k = JBool false ↔ o !! k = Some (JBool false).
Proof. unfold member. destruct (o !! k); naive_solver. Qed.

Lemma not_false_is_false v : not_false v = JBool false ↔ v = JBool false.
Proof.
  unfold not_false. case_bool_decide; [naive_solver|].
  split; [intros _|done]. by destruct (decide (v = JBool false)).
Qed.

Lemma make_dimension_members dim :
  member (make_dimension dim) "name" = member dim "name"
  ∧ member (make_dimension dim) "sql" = js_or (member dim "sql") (member dim "name")
  ∧ member (make_dimension dim) "shown" = not_false (member dim "shown").
Proof. done. Qed.

Lemma make_measure_members m :
  member (make_measure m) "name" = member m "name"
  ∧ member (make_measure m) "sql" = js_or (member m "sql") (member m "name")
  ∧ member (make_measure m) "shown" = not_false (member m "shown").
Proof. done. Qed.

(** X13: the configured dimensions and measures come out in their order,
    after 'id' and 'count': each keeps its name, takes its own sql when that
    is truthy and its name otherwise, and is hidden exactly when its shown
    member is the boolean false (undefined, null, 0 and the empty string
    leave it shown). *)
Theorem generated_members_follow_config config :
  let cube := generateDynamicCube config in
  let follows (given made : gmap string JsValue) :=
    member made "name" = member given "name"
    ∧ member made "sql"
      = (if truthy (member given "sql") then member given "sql"
         else member given "name")
    ∧ (member made "shown" = JBool false ↔ given !! "shown" = Some (JBool false))
    ∧ (member made "shown" = JBool false ∨ member made "shown" = JBool true) in
  Forall2 follows (default [] (dimensions config)) (tail (cube_dimensions cube))
  ∧ Forall2 follows (default [] (measures config)) (tail (cube_measures cube)).
Proof.
  assert (∀ v, not_false v = JBool false ∨ not_false v = JBool true) as Hbool.
  { intros v. unfold not_false. case_bool_decide; auto. }
  intros cube follows. subst cube follows. unfold generateDynamicCube.
  cbn [cube_dimensions cube_measures tail]. split.
  - apply Forall2_fmap_r, Forall_Forall2_diag, Forall_forall. intros dim _.
    unfold compose.
    destruct (make_dimension_members dim) as (-> & -> & ->).
    split_and!; [done | done | | apply Hbool].
    by rewrite not_false_is_false, member_is_false.
  - apply Forall2_fmap_r, Forall_Forall2_diag, Forall_forall. intros m _.
    unfold compose.
    destruct (make_measure_members m) as (-> & -> & ->).
    split_and!; [done | done | | apply Hbool].
    by rewrite not_false_is_false, member_is_false.
Qed.

(** X14: the cube gets an sql_where member exactly when the security
    settings of the configuration have a truthy one, and then it is that
    value; without security settings, or with an empty or null sql_where,
    the member is absent.  The same holds for shown. *)
Theorem generated_security_only_when_truthy config (v : JsValue) :
  let cube := generateDynamicCube config in
  (sql_where cube = Some v ↔
   ∃ sec, security config = Some sec ∧ sec !! "sql_where" = Some v
          ∧ truthy v = true)
  ∧ (shown cube = Some v ↔
     ∃ sec, security config = Some sec ∧ sec !! "shown" = Some v
            ∧ truthy v = true).
Proof.
  assert (∀ (sec : option (gmap string JsValue)) k,
            spread_if_truthy (member (default ∅ sec) k) = Some v ↔
            ∃ s, sec = Some s ∧ s !! k = Some v ∧ truthy v = true) as Hspread.
  { intros [s|] k; unfold spread_if_truthy, member; cbn.
    - destruct (s !! k) as [w|] eqn:Hw; cbn.
      + destruct (truthy w) eqn:Ht; split.
        * intros [= ->]. by exists s.
        * intros (s' & [= <-] & Hv & _). congruence.
        * done.
        * intros (s' & [= <-] & Hv & Htv). congruence.
      + split; [done|]. intros (s' & [= <-] & Hv & _). congruence.
    - rewrite lookup_empty. split; [done|]. by intros (s' & ? & _). }
  intros cube. subst cube. unfold generateDynamicCube.
  cbn [sql_where shown]. split; apply Hspread.
Qed.

End GeneratedCubes.

Section GeneratedFiles.
Import DynamicSchema.
Context (stringify : Cube → string).

Lemma generated_name_inj : Inj (=) (=) generated_name.
Proof.
  intros i j H. unfold generated_name in H.
  apply (inj (String.app _)) in H.
  apply string_app_inv_tail in H. by apply (inj pretty).
Qed.

Lemma dataSchemaFiles_fileNames (cubes : list CubeConfig) :
  fileName <$> dataSchemaFiles stringify cubes
  = generated_name <$> seq 0 (length cubes).
Proof.
  unfold dataSchemaFiles. rewrite fmap_imap.
  rewrite <- (length_fmap generateDynamicCube cubes).
  rewrite <- (imap_seq_0 (generateDynamicCube <$> cubes) generated_name).
  by apply imap_ext.
Qed.

(** X15: [dataSchemaFiles] gives one virtual file for each cube of the
    client configuration, none for an empty configuration; the file at
    position i is named generated-cube-i.js and holds the export of the
    cube generated from the i-th configuration, so no two files share a
    name. *)
Theorem dataSchemaFiles_one_file_per_cube (cubes : list CubeConfig) :
  length (dataSchemaFiles stringify cubes) = length cubes
  ∧ NoDup (fileName <$> dataSchemaFiles stringify cubes)
  ∧ ∀ i, dataSchemaFiles stringify cubes !! i
         = (λ config,
              {| fileName := "generated-cube-" +:+ pretty i +:+ ".js";
                 content := "module.exports = "
                            +:+ stringify (generateDynamicCube config) +:+ ";" |})
           <$> cubes !! i.
Proof.
  split_and!.
  - unfold dataSchemaFiles. by rewrite length_imap, length_fmap.
  - rewrite dataSchemaFiles_fileNames.
    apply (@NoDup_fmap_2 _ _ generated_name generated_name_inj), NoDup_seq.
  - intros i. unfold dataSchemaFiles.
    rewrite list_lookup_imap, list_lookup_fmap. by destruct (cubes !! i).
Qed.

End GeneratedFiles.

(** ** The embedded analytics sample of module 6 *)

Section Charts.
Import Analytics.
Implicit Types (data : list Row) (measures : option (list JsValue)).

Lemma body_row_values index (row : Row) :
  cell_value <$> children (body_row index row) = row.*2
  ∧ key_of <$> children (body_row index row)
    = (Some ∘ KeyNum) <$> seq 0 (length row).
Proof.
  unfold body_row. cbn [children]. split.
  - rewrite fmap_imap. trans (imap (const id) (row.*2)).
    + by apply imap_ext.
    + rewrite imap_const. apply list_fmap_id.
  - rewrite fmap_imap.
    rewrite <- (length_fmap snd row).
    rewrite <- (imap_seq_0 (row.*2) (Some ∘ KeyNum)). by apply imap_ext.
Qed.

(** X16: as a table, and by default when no chart type is given, the chart
    shows every row of the data: the body has one row for each data row, in
    order and keyed 0, 1, 2, ...; the cells of a row are the values of the
    data row in order; the header cells are the property names of the
    first data row, each keyed by its name. *)
Theorem renderChart_table_shows_all_rows chartType measures data :
  chartType = JStr "table" ∨ chartType = JUndefined →
  ∃ table, renderChart chartType measures data = Shows table
    ∧ length (table_body table) = length data
    ∧ key_of <$> table_body table = (Some ∘ KeyNum) <$> seq 0 (length data)
    ∧ (λ tr, cell_value <$> children tr) <$> table_body table
      = (λ row : Row, row.*2) <$> data
    ∧ cell_value <$> table_head table = JStr <$> (default [] (head data)).*1
    ∧ key_of <$> table_head table
      = (Some ∘ KeyStr) <$> (default [] (head data)).*1.
Proof.
  intros Htype.
  assert (renderChart chartType measures data = renderChart (JStr "table") measures data)
    as -> by (by destruct Htype as [-> | ->]).
  eexists. split; [reflexivity|]. cbn [table_body table_head].
  split_and!.
  - by rewrite length_imap.
  - rewrite fmap_imap. rewrite <- (imap_seq_0 data (Some ∘ KeyNum)).
    by apply imap_ext.
  - rewrite fmap_imap. etrans; [|apply imap_const]. apply imap_ext.
    intros i row _. apply (body_row_values i row).
  - unfold header_cells. rewrite <- !list_fmap_compose. by apply list_fmap_ext.
  - unfold header_cells. rewrite <- !list_fmap_compose. by apply list_fmap_ext.
Qed.

(** X17: as a KPI card the chart shows the first value of the first data
    row and the first measure of the query; it throws when the query has no
    measures to index, and shows an undefined value when there is no first
    value. *)
Theorem renderChart_kpi measures data :
  (measures = None ↔ renderChart (JStr "kpi") measures data = Throws)
  ∧ ∀ ms, measures = Some ms →
      ∃ card, renderChart (JStr "kpi") measures data = Shows card
        ∧ cell_value <$> children card
          = [ default JUndefined (data !! 0 ≫= λ row : Row, row.*2 !! 0);
              default JUndefined (ms !! 0) ].
Proof.
  split.
  - destruct measures; by split.
  - intros ms ->. eexists. split; [reflexivity|]. cbn.
    f_equal; [|by destruct ms].
    destruct data as [|row data]; [done|]. cbn. by destruct row.
Qed.

(** X18: the notice 'Chart type not supported' is what the chart shows
    exactly when the chart type is something other than 'table', 'kpi' and
    undefined, whatever the data and the query; the type is compared as it
    is, so 'Table' or 'KPI' are not supported. *)
Theorem renderChart_unsupported chartType measures data :
  renderChart chartType measures data
  = Shows (Elem "div" None None [Txt "Chart type not supported"])
  ↔ chartType ≠ JUndefined ∧ chartType ≠ JStr "table" ∧ chartType ≠ JStr "kpi".
Proof.
  unfold renderChart.
  destruct (decide (chartType = JUndefined)) as [->|H1]; [by split; [|intros []]|].
  rewrite (bool_decide_eq_false_2 (chartType = JUndefined)) by done. cbn zeta iota.
  destruct (decide (chartType = JStr "table")) as [->|H2];
    [by split; [|intros (_ & ? & _)]|].
  rewrite (bool_decide_eq_false_2 (chartType = JStr "table")) by done.
  destruct (decide (chartType = JStr "kpi")) as [->|H3].
  - cbn. destruct measures; by split; [|intros (_ & _ & ?)].
  - by rewrite (bool_decide_eq_false_2 (chartType = JStr "kpi")) by done.
Qed.

End Charts.

Lemma renderChart_table_shows_all_rows_witness :
  let data : list Analytics.Row :=
    [ [("orders.customer_region", JStr "EUROPE"); ("orders.total_revenue", JNum 12)];
      [("orders.customer_region", JStr "ASIA"); ("orders.total_revenue", JNum 7)] ] in
  ∃ table, Analytics.renderChart JUndefined None data = Analytics.Shows table
    ∧ length (Analytics.table_body table) = length data
    ∧ Analytics.key_of <$> Analytics.table_body table
      = (Some ∘ Analytics.KeyNum) <$> seq 0 (length data)
    ∧ (λ tr, Analytics.cell_value <$> Analytics.children tr)
        <$> Analytics.table_body table
      = (λ row : Analytics.Row, row.*2) <$> data
    ∧ Analytics.cell_value <$> Analytics.table_head table
      = JStr <$> (default [] (head data)).*1
    ∧ Analytics.key_of <$> Analytics.table_head table
      = (Some ∘ Analytics.KeyStr) <$> (default [] (head data)).*1.
Proof.
  intros data.
  apply (renderChart_table_shows_all_rows JUndefined None data). by right.
Defined.
